(** * A shallow embedding of the real-estate CRUD backend (src/main.py, src/schemas.py)

    Python [str] values are modelled as lists of Unicode code points; dicts as
    association lists in insertion order; the document store as explicit
    state passed to and returned by the handlers; HTTP outcomes as a sum of a
    JSON-like success body and an [HTTPException] (status code, detail). *)

From Stdlib Require Import ZArith List Bool Lia String Ascii Strings.Byte.
Import ListNotations.
Open Scope Z_scope.
#[local] Set Warnings "-register-all".

(* ------------------------------------------------------------------ *)
(** ** Python strings and JSON-like values *)

(** A Python [str]: a sequence of code points. *)
Definition pystr := list Z.

Definition str_eq_dec : forall a b : pystr, {a = b} + {a <> b} :=
  list_eq_dec Z.eq_dec.

(** An ASCII literal of the source, as a [pystr]. *)
Definition of_ascii (s : string) : pystr :=
  map (fun a => Z.of_nat (nat_of_ascii a)) (list_ascii_of_string s).

(** Values that a JSON body or a stored document can hold; [VObjectId] is
    the store's native identifier (a 96-bit number). *)
Inductive value : Type :=
| VNone
| VBool (b : bool)
| VInt (z : Z)
| VStr (s : pystr)
| VList (l : list value)
| VDict (d : list (pystr * value))
| VObjectId (oid : Z).

(** A Python [dict] with string keys, in insertion order. *)
Definition dict := list (pystr * value).

(** [d[k] = v]: overwrite in place when [k] is present, append otherwise. *)
Fixpoint dict_set (d : dict) (k : pystr) (v : value) : dict :=
  match d with
  | [] => [(k, v)]
  | (k', v') :: r =>
      if str_eq_dec k k' then (k', v) :: r else (k', v') :: dict_set r k v
  end.

(** Python truthiness of an optional string ([None] and [""] are false). *)
Definition truthy (o : option pystr) : bool :=
  match o with
  | Some (_ :: _) => true
  | _ => false
  end.

(* ------------------------------------------------------------------ *)
(** ** The document store (the [database] module, absent from src/) *)

(** A stored record: the store-assigned identifier and the body. *)
Record record := mk_record { rid : Z; body : dict }.

(** The state behind the global [db] handle: the collections by name and
    the next identifier the store will hand out. *)
Record store := mk_store { colls : list (pystr * list record); next_id : Z }.

Fixpoint coll_get (cs : list (pystr * list record)) (c : pystr) : list record :=
  match cs with
  | [] => []
  | (c', rs) :: r => if str_eq_dec c c' then rs else coll_get r c
  end.

Fixpoint coll_append (cs : list (pystr * list record)) (c : pystr) (x : record)
  : list (pystr * list record) :=
  match cs with
  | [] => [(c, [x])]
  | (c', rs) :: r =>
      if str_eq_dec c c' then (c', rs ++ [x]) :: r
      else (c', rs) :: coll_append r c x
  end.

Definition hex_digit (d : Z) : Z :=
  if d <? 10 then 48 + d else 87 + d.

(** [str(ObjectId)]: 24 lower-case hexadecimal digits. *)
Fixpoint hex_digits (n : nat) (z : Z) (acc : pystr) : pystr :=
  match n with
  | O => acc
  | S n' => hex_digits n' (z / 16) (hex_digit (z mod 16) :: acc)
  end.

Definition oid_str (oid : Z) : pystr := hex_digits 24 oid [].

(** Modelled from the spec: [create_document] of the [database] module
    (not in src/). "insert one" into the named collection: the payload is
    stored verbatim next to a fresh store-assigned identifier, which is
    returned rendered as a string. *)
Definition create_document (s : store) (c : pystr) (payload : dict)
  : pystr * store :=
  let i := next_id s in
  (oid_str i, mk_store (coll_append (colls s) c (mk_record i payload)) (i + 1)).

(** Modelled from the spec: [get_documents] of the [database] module (not
    in src/). "find many with limit": the records of the collection in
    insertion order, each as a flat document with its identifier field
    [_id] first, at most [limit] of them. *)
Definition get_documents (s : store) (c : pystr) (limit : Z) : list dict :=
  map (fun r => (of_ascii "_id", VObjectId (rid r)) :: body r)
      (firstn (Z.to_nat limit) (coll_get (colls s) c)).

(* ------------------------------------------------------------------ *)
(** ** Handler outcomes *)

(** The result of a request handler: a JSON body, or an [HTTPException]. *)
Inductive response : Type :=
| Ok (v : value)
| HttpError (code : Z) (detail : pystr).

(** A call that returns a value or raises an [Exception] whose [str] is [msg]. *)
Inductive outcome (A : Type) : Type :=
| Returns (a : A)
| Raises (msg : pystr).
Arguments Returns {A} a.
Arguments Raises {A} msg.

(* ------------------------------------------------------------------ *)
(** ** Generic list and create (main.py, lines 72-101) *)

Definition VALID_COLLECTIONS : list pystr :=
  map of_ascii
    ["tenant"; "owner"; "property"; "lease"; "sale"; "expense"; "document"]%string.

Definition valid_collection (c : pystr) : bool :=
  existsb (fun v => if str_eq_dec c v then true else false) VALID_COLLECTIONS.

Section Gateway.

(** Python's [str(v)], total on every value. *)
Variable py_str : value -> pystr.

(** The nested [normalize] of [list_items]. *)
Definition normalize (doc : dict) : dict :=
  fold_left
    (fun d kv =>
       let '(k, v) := kv in
       if str_eq_dec k (of_ascii "_id") then dict_set d k (VStr (py_str v))
       else dict_set d k v)
    doc [].

Definition list_items (db : option store) (collection : pystr) (limit : Z)
  : response :=
  match db with
  | None => HttpError 500 (of_ascii "Database not configured")
  | Some s =>
      if negb (valid_collection collection) then
        HttpError 404 (of_ascii "Collection not found")
      else
        let items := get_documents s collection limit in
        Ok (VDict [(of_ascii "items", VList (map (fun i => VDict (normalize i)) items))])
  end.

End Gateway.

(** [str(v)] on the identifiers this store hands out and on strings (the
    only values a concrete [_id] takes in the examples below). *)
Definition oid_render (v : value) : pystr :=
  match v with
  | VObjectId o => oid_str o
  | VStr t => t
  | _ => []
  end.

Definition create_item (db : option store) (collection : pystr) (payload : dict)
  : response * option store :=
  match db with
  | None => (HttpError 500 (of_ascii "Database not configured"), db)
  | Some s =>
      if negb (valid_collection collection) then
        (HttpError 404 (of_ascii "Collection not found"), db)
      else
        let '(inserted_id, s') := create_document s collection payload in
        (Ok (VDict [(of_ascii "id", VStr inserted_id);
                    (of_ascii "message", VStr (of_ascii "Created"))]), Some s')
  end.

(* ------------------------------------------------------------------ *)
(** ** Upload and lightweight extraction (main.py, lines 104-147) *)

(** Python's [str.lower] on one code point.  Besides A-Z, the only
    character whose lower case is an ASCII letter is the Kelvin sign
    U+212A ("k"); the other case mappings of [str.lower] produce non-ASCII
    text, which is all that matters for the [endswith] tests below. *)
Definition lower_char (c : Z) : Z :=
  if (65 <=? c) && (c <=? 90) then c + 32
  else if c =? 8490 then 107
  else c.

Definition py_lower (s : pystr) : pystr := map lower_char s.

(** [s.endswith(suffix)]. *)
Definition endswith (s suffix : pystr) : bool :=
  if str_eq_dec (skipn (List.length s - List.length suffix)%nat s) suffix then true
  else false.

(** [s.endswith((a, b, ...))]. *)
Definition endswith_any (s : pystr) (suffixes : list pystr) : bool :=
  existsb (endswith s) suffixes.

(** *** UTF-8 decoding with a codec error handler *)

Definition bz (b : byte) : Z := Z.of_N (Byte.to_N b).

Definition in_range (lo hi b : Z) : bool := (lo <=? b) && (b <=? hi).

Definition cont (b : Z) : bool := in_range 128 191 b.

(** Admissible range of the second byte of a 3- or 4-byte sequence. *)
Definition second_lo (b : Z) : Z :=
  if b =? 224 then 160 else if b =? 240 then 144 else 128.
Definition second_hi (b : Z) : Z :=
  if b =? 237 then 159 else if b =? 244 then 143 else 191.

(** CPython's UTF-8 decoder: an invalid start byte, or the maximal valid
    prefix of a truncated or broken sequence, is one error; the handler's
    text [on_error] replaces it and decoding resumes at the offending byte.
    [errors="ignore"] is [on_error = []], [errors="replace"] is
    [on_error = [U+FFFD]]. *)
Fixpoint utf8_decode (on_error : pystr) (bs : list byte) : pystr :=
  match bs with
  | [] => []
  | b0 :: rest =>
      let b := bz b0 in
      if b <? 128 then b :: utf8_decode on_error rest
      else if in_range 194 223 b then
        match rest with
        | [] => on_error
        | c0 :: r =>
            let c := bz c0 in
            if cont c then (64 * (b - 192) + (c - 128)) :: utf8_decode on_error r
            else on_error ++ utf8_decode on_error rest
        end
      else if in_range 224 239 b then
        match rest with
        | [] => on_error
        | c10 :: r1 =>
            let c1 := bz c10 in
            if in_range (second_lo b) (second_hi b) c1 then
              match r1 with
              | [] => on_error
              | c20 :: r2 =>
                  let c2 := bz c20 in
                  if cont c2 then
                    (4096 * (b - 224) + 64 * (c1 - 128) + (c2 - 128))
                      :: utf8_decode on_error r2
                  else on_error ++ utf8_decode on_error r1
              end
            else on_error ++ utf8_decode on_error rest
        end
      else if in_range 240 244 b then
        match rest with
        | [] => on_error
        | c10 :: r1 =>
            let c1 := bz c10 in
            if in_range (second_lo b) (second_hi b) c1 then
              match r1 with
              | [] => on_error
              | c20 :: r2 =>
                  let c2 := bz c20 in
                  if cont c2 then
                    match r2 with
                    | [] => on_error
                    | c30 :: r3 =>
                        let c3 := bz c30 in
                        if cont c3 then
                          (262144 * (b - 240) + 4096 * (c1 - 128)
                             + 64 * (c2 - 128) + (c3 - 128))
                            :: utf8_decode on_error r3
                        else on_error ++ utf8_decode on_error r2
                    end
                  else on_error ++ utf8_decode on_error r1
              end
            else on_error ++ utf8_decode on_error rest
        end
      else on_error ++ utf8_decode on_error rest
  end.

(** [raw.decode(errors="ignore")]. *)
Definition decode_ignore (raw : list byte) : pystr := utf8_decode [] raw.

(** [raw.decode(errors="replace")], the decoding the spec's words
    ("replacing undecodable bytes") describe. *)
Definition decode_replace (raw : list byte) : pystr := utf8_decode [65533] raw.

(** *** Extraction cascade (lines 119-134) *)

Definition EXCEL_NOTE : pystr := of_ascii "Excel file uploaded (preview disabled).".
Definition PDF_NOTE : pystr :=
  of_ascii "PDF uploaded (text extraction not available in lightweight mode).".

(** The three guarded assignments to [extracted_text], in order.  The
    [try]/[except] around the decode never fires: decoding with
    [errors="ignore"] is total. *)
Definition extract_text (filename : pystr) (raw : list byte) : option pystr :=
  let extracted_text : option pystr := None in
  let extracted_text :=
    if endswith_any (py_lower filename) [of_ascii ".csv"; of_ascii ".tsv"]
    then Some (decode_ignore raw) else extracted_text in
  let extracted_text :=
    match extracted_text with
    | None =>
        if endswith_any (py_lower filename) [of_ascii ".xlsx"; of_ascii ".xls"]
        then Some EXCEL_NOTE else None
    | Some t => Some t
    end in
  match extracted_text with
  | None => if endswith (py_lower filename) (of_ascii ".pdf") then Some PDF_NOTE else None
  | Some t => Some t
  end.

(** *** Tags (line 140) *)

(** The characters for which Python's [str.isspace] holds. *)
Definition is_space (c : Z) : bool :=
  in_range 9 13 c || in_range 28 32 c || (c =? 133) || (c =? 160)
  || (c =? 5760) || in_range 8192 8202 c || (c =? 8232) || (c =? 8233)
  || (c =? 8239) || (c =? 8287) || (c =? 12288).

Fixpoint lstrip (s : pystr) : pystr :=
  match s with
  | c :: r => if is_space c then lstrip r else s
  | [] => []
  end.

(** [s.strip()]. *)
Definition strip (s : pystr) : pystr := rev (lstrip (rev (lstrip s))).

(** [s.split(",")]. *)
Fixpoint split_comma (s : pystr) : list pystr :=
  match s with
  | [] => [[]]
  | c :: r =>
      let parts := split_comma r in
      if c =? 44 then [] :: parts
      else match parts with
           | p :: ps => (c :: p) :: ps
           | [] => [[c]]
           end
  end.

Definition nonempty (s : pystr) : bool :=
  match s with [] => false | _ => true end.

(** [[t.strip() for t in (tags.split(",") if tags else []) if t.strip()]]. *)
Definition parse_tags (tags : option pystr) : list pystr :=
  let pieces := match tags with
                | Some t => if truthy tags then split_comma t else []
                | None => []
                end in
  map strip (filter (fun t => nonempty (strip t)) pieces).

(** *** The handler *)

(** [a or b] on optional strings. *)
Definition or_else (a : option pystr) (b : pystr) : pystr :=
  match a with
  | Some (c :: r) => c :: r
  | _ => b
  end.

Definition opt_value (o : option pystr) : value :=
  match o with Some s => VStr s | None => VNone end.

(** The fields of the stored document (lines 136-144). *)
Definition upload_doc (filename content_type : pystr) (title tags : option pystr)
    (related_type related_id extracted_text : option pystr) : dict :=
  [(of_ascii "title", VStr (or_else title filename));
   (of_ascii "filename", VStr filename);
   (of_ascii "content_type", VStr content_type);
   (of_ascii "tags", VList (map VStr (parse_tags tags)));
   (of_ascii "related_type", opt_value related_type);
   (of_ascii "related_id", opt_value related_id);
   (of_ascii "extracted_text", opt_value extracted_text)].

(** [extracted_text[:1000] if extracted_text else None]. *)
Definition preview (extracted_text : option pystr) : value :=
  if truthy extracted_text then
    match extracted_text with
    | Some t => VStr (firstn 1000 t)
    | None => VNone
    end
  else VNone.

(** [upload_document]: [file_filename] and [file_content_type] are the
    attributes of the [UploadFile], [raw] its content; [related_type] is the
    form value as received (its default is ["general"]). *)
Definition upload_document (db : option store)
    (file_filename file_content_type : option pystr) (raw : list byte)
    (title tags related_type related_id : option pystr)
  : response * option store :=
  match db with
  | None => (HttpError 500 (of_ascii "Database not configured"), db)
  | Some s =>
      let filename := or_else file_filename (of_ascii "uploaded") in
      let content_type := or_else file_content_type (of_ascii "application/octet-stream") in
      let extracted_text := extract_text filename raw in
      let doc := upload_doc filename content_type title tags
                            related_type related_id extracted_text in
      let '(inserted_id, s') := create_document s (of_ascii "document") doc in
      (Ok (VDict [(of_ascii "id", VStr inserted_id);
                  (of_ascii "message", VStr (of_ascii "Uploaded"));
                  (of_ascii "preview", preview extracted_text)]), Some s')
  end.

(* ------------------------------------------------------------------ *)
(** ** The schema registry (schemas.py) and [/schema] (main.py, 53-69) *)

(** Field annotations used in schemas.py. *)
Inductive ftype : Type :=
| TStr | TEmail | TInt | TFloat | TBool | TDate
| TList (t : ftype)
| TLiteral (choices : list pystr)
| TOptional (t : ftype).

(** A field: name, annotation, [Field(...)] default ([None] for a
    required field, i.e. [...]) and [ge] bound when present. *)
Record field := mk_field
  { fname : pystr; ftyp : ftype; fdefault : option value; fge : option Z }.

(** An attribute of a Python module: a class (with whether it subclasses
    [BaseModel], and its annotated fields) or anything else. *)
Inductive attr : Type :=
| AClass (is_basemodel : bool) (fields : list field)
| AOther.

Definition pymodule := list (pystr * attr).

Fixpoint getattr (m : pymodule) (name : pystr) : option attr :=
  match m with
  | [] => None
  | (n, a) :: r => if str_eq_dec name n then Some a else getattr r name
  end.

Definition req (n : string) (t : ftype) : field := mk_field (of_ascii n) t None None.
Definition opt (n : string) (t : ftype) (d : value) : field :=
  mk_field (of_ascii n) t (Some d) None.
Definition lits (l : list string) : ftype := TLiteral (map of_ascii l).

Definition Tenant_fields : list field :=
  [req "first_name" TStr; req "last_name" TStr;
   opt "email" (TOptional TEmail) VNone; opt "phone" (TOptional TStr) VNone;
   opt "current_property_id" (TOptional TStr) VNone;
   opt "notes" (TOptional TStr) VNone].

Definition Owner_fields : list field :=
  [req "first_name" TStr; req "last_name" TStr;
   opt "email" (TOptional TEmail) VNone; opt "phone" (TOptional TStr) VNone;
   opt "company" (TOptional TStr) VNone].

Definition Property_fields : list field :=
  [req "title" TStr; req "address" TStr;
   opt "city" (TOptional TStr) VNone; opt "state" (TOptional TStr) VNone;
   opt "postal_code" (TOptional TStr) VNone; opt "country" (TOptional TStr) VNone;
   opt "owner_id" (TOptional TStr) VNone;
   opt "type" (TOptional (lits ["apartment"; "house"; "condo"; "land"; "office";
                                "retail"; "industrial"; "other"]%string))
       (VStr (of_ascii "apartment"));
   mk_field (of_ascii "bedrooms") (TOptional TInt) (Some VNone) (Some 0);
   mk_field (of_ascii "bathrooms") (TOptional TFloat) (Some VNone) (Some 0);
   mk_field (of_ascii "area_sqft") (TOptional TFloat) (Some VNone) (Some 0)].

Definition Lease_fields : list field :=
  [req "tenant_id" TStr; req "property_id" TStr; req "start_date" TDate;
   opt "end_date" (TOptional TDate) VNone;
   mk_field (of_ascii "monthly_rent") TFloat None (Some 0);
   mk_field (of_ascii "deposit") (TOptional TFloat) (Some (VInt 0)) (Some 0);
   opt "status" (lits ["active"; "pending"; "ended"]%string) (VStr (of_ascii "active"))].

Definition Sale_fields : list field :=
  [req "property_id" TStr; req "buyer_name" TStr;
   opt "seller_owner_id" (TOptional TStr) VNone;
   mk_field (of_ascii "price") TFloat None (Some 0);
   opt "date_closed" (TOptional TDate) VNone;
   opt "status" (lits ["listed"; "under_contract"; "sold"; "cancelled"]%string)
       (VStr (of_ascii "listed"))].

Definition Expense_fields : list field :=
  [opt "property_id" (TOptional TStr) VNone;
   opt "category" (lits ["maintenance"; "tax"; "utilities"; "insurance";
                         "management"; "other"]%string) (VStr (of_ascii "other"));
   mk_field (of_ascii "amount") TFloat None (Some 0);
   opt "description" (TOptional TStr) VNone;
   req "expense_date" TDate;
   opt "paid" TBool (VBool false)].

Definition Document_fields : list field :=
  [req "title" TStr;
   opt "file_id" (TOptional TStr) VNone; opt "filename" (TOptional TStr) VNone;
   opt "content_type" (TOptional TStr) VNone;
   opt "tags" (TList TStr) (VList []);
   opt "related_type" (TOptional (lits ["tenant"; "owner"; "property"; "lease";
                                        "sale"; "expense"; "general"]%string))
       (VStr (of_ascii "general"));
   opt "related_id" (TOptional TStr) VNone;
   opt "extracted_text" (TOptional TStr) VNone;
   opt "extracted_summary" (TOptional TStr) VNone].

(** The module [schemas] as imported: its classes and the names it imports. *)
Definition schemas_module : pymodule :=
  [(of_ascii "Optional", AOther); (of_ascii "List", AOther);
   (of_ascii "Literal", AOther); (of_ascii "BaseModel", AClass true []);
   (of_ascii "Field", AOther); (of_ascii "EmailStr", AOther);
   (of_ascii "date", AClass false []);
   (of_ascii "Tenant", AClass true Tenant_fields);
   (of_ascii "Owner", AClass true Owner_fields);
   (of_ascii "Property", AClass true Property_fields);
   (of_ascii "Lease", AClass true Lease_fields);
   (of_ascii "Sale", AClass true Sale_fields);
   (of_ascii "Expense", AClass true Expense_fields);
   (of_ascii "Document", AClass true Document_fields)].

Fixpoint ftype_schema (t : ftype) : dict :=
  match t with
  | TStr => [(of_ascii "type", VStr (of_ascii "string"))]
  | TEmail => [(of_ascii "type", VStr (of_ascii "string"));
               (of_ascii "format", VStr (of_ascii "email"))]
  | TInt => [(of_ascii "type", VStr (of_ascii "integer"))]
  | TFloat => [(of_ascii "type", VStr (of_ascii "number"))]
  | TBool => [(of_ascii "type", VStr (of_ascii "boolean"))]
  | TDate => [(of_ascii "type", VStr (of_ascii "string"));
              (of_ascii "format", VStr (of_ascii "date"))]
  | TList u => [(of_ascii "type", VStr (of_ascii "array"));
                (of_ascii "items", VDict (ftype_schema u))]
  | TLiteral cs => [(of_ascii "enum", VList (map VStr cs));
                    (of_ascii "type", VStr (of_ascii "string"))]
  | TOptional u => [(of_ascii "anyOf", VList [VDict (ftype_schema u);
                                               VDict [(of_ascii "type", VStr (of_ascii "null"))]])]
  end.

Definition field_schema (f : field) : pystr * value :=
  (fname f,
   VDict (ftype_schema (ftyp f)
          ++ match fge f with Some b => [(of_ascii "minimum", VInt b)] | None => [] end
          ++ match fdefault f with Some d => [(of_ascii "default", d)] | None => [] end)).

(** [model.model_json_schema()]: the structural (JSON-Schema) description
    of the class, derived from its fields. *)
Definition model_json_schema (name : pystr) (fields : list field) : value :=
  VDict [(of_ascii "properties", VDict (map field_schema fields));
         (of_ascii "required",
          VList (map (fun f => VStr (fname f))
                     (filter (fun f => match fdefault f with None => true | _ => false end)
                             fields)));
         (of_ascii "title", VStr name);
         (of_ascii "type", VStr (of_ascii "object"))].

Definition model_names : list pystr :=
  map of_ascii ["Tenant"; "Owner"; "Property"; "Lease"; "Sale"; "Expense"; "Document"]%string.

(** [get_schema]: [imported] is the result of [importlib.import_module],
    or the exception it raises.  [issubclass] on a non-class raises,
    which the framework turns into a 500. *)
Definition get_schema (imported : outcome pymodule) : response :=
  match imported with
  | Raises e => HttpError 500 (of_ascii "Unable to import schemas: " ++ e)
  | Returns schemas_mod =>
      let step (acc : option dict) (name : pystr) : option dict :=
        match acc with
        | None => None
        | Some out =>
            match getattr schemas_mod name with
            | None => Some out
            | Some (AClass true fs) =>
                Some (dict_set out (py_lower name) (model_json_schema name fs))
            | Some (AClass false _) => Some out
            | Some AOther => None
            end
        end in
      match fold_left step model_names (Some []) with
      | Some out => Ok (VDict out)
      | None => HttpError 500 (of_ascii "Internal Server Error")
      end
  end.

(* ------------------------------------------------------------------ *)
(** ** Diagnostics [/test] (main.py, lines 26-50) *)


(** [db.list_collection_names()]: the names of the collections present,
    unless the call to the server fails ([fault]). *)
Definition list_collection_names (s : store) (fault : option pystr)
  : outcome (list pystr) :=
  match fault with
  | Some e => Raises e
  | None => Returns (map fst (colls s))
  end.

Definition CHECK : pystr := [9989].          (* U+2705 *)
Definition CROSS : pystr := [10060].         (* U+274C *)
Definition WARN : pystr := [9888; 65039].    (* U+26A0 U+FE0F *)

Definition SET : pystr := CHECK ++ of_ascii " Set".
Definition NOT_SET : pystr := CROSS ++ of_ascii " Not Set".

(** [getenv] is [os.getenv]. *)
Definition test_database (db : option store) (fault : option pystr)
    (getenv : pystr -> option pystr) : response :=
  let response : dict :=
    [(of_ascii "backend", VStr (CHECK ++ of_ascii " Running"));
     (of_ascii "database", VStr (CROSS ++ of_ascii " Not Available"));
     (of_ascii "database_url", VNone);
     (of_ascii "database_name", VNone);
     (of_ascii "connection_status", VStr (of_ascii "Not Connected"));
     (of_ascii "collections", VList [])] in
  (* the outer [try]: nothing in its body raises but the call guarded by the inner one *)
  match db with
  | Some s =>
      let response := dict_set response (of_ascii "database")
                        (VStr (CHECK ++ of_ascii " Connected & Working")) in
      let response := dict_set response (of_ascii "database_url")
                        (VStr (if truthy (getenv (of_ascii "DATABASE_URL")) then SET else NOT_SET)) in
      let response := dict_set response (of_ascii "database_name")
                        (VStr (if truthy (getenv (of_ascii "DATABASE_NAME")) then SET else NOT_SET)) in
      match list_collection_names s fault with
      | Returns collections =>
          Ok (VDict (dict_set response (of_ascii "collections")
                                (VList (map VStr (firstn 20 collections)))))
      | Raises e =>
          Ok (VDict (dict_set response (of_ascii "database")
                                (VStr (WARN ++ of_ascii " Connected but Error: " ++ firstn 80 e))))
      end
  | None =>
      Ok (VDict (dict_set response (of_ascii "database")
                            (VStr (WARN ++ of_ascii " Available but not initialized"))))
  end.

Fixpoint dict_get (d : dict) (k : pystr) : option value :=
  match d with
  | [] => None
  | (k', v) :: r => if str_eq_dec k k' then Some v else dict_get r k
  end.

(* ------------------------------------------------------------------ *)
(** ** Reference definitions the properties compare against *)

(** A document entry after [normalize], as the spec words it. *)
Definition render (py_str : value -> pystr) (kv : pystr * value) : pystr * value :=
  (fst kv, if str_eq_dec (fst kv) (of_ascii "_id") then VStr (py_str (snd kv)) else snd kv).

Definition DB_NOT_CONFIGURED : response := HttpError 500 (of_ascii "Database not configured").
Definition COLLECTION_NOT_FOUND : response := HttpError 404 (of_ascii "Collection not found").

(** The cascade as the spec words it: first matching rule wins, on the
    case-folded filename. *)
Definition extract_cascade (filename : pystr) (raw : list byte) : option pystr :=
  let name := py_lower filename in
  if endswith name (of_ascii ".csv") || endswith name (of_ascii ".tsv") then
    Some (decode_ignore raw)
  else if endswith name (of_ascii ".xlsx") || endswith name (of_ascii ".xls") then
    Some EXCEL_NOTE
  else if endswith name (of_ascii ".pdf") then Some PDF_NOTE
  else None.

(** Split on commas, trim each piece, drop the empty ones. *)
Definition tags_spec (tags : option pystr) : list pystr :=
  match tags with
  | Some t => filter nonempty (map strip (split_comma t))
  | None => []
  end.

(** The title fallback as described: the title when given and non-empty,
    else the filename when given and non-empty, else ["uploaded"]. *)
Definition title_spec (title file_filename : option pystr) : pystr :=
  match title with
  | Some (c :: t) => c :: t
  | _ => match file_filename with
         | Some (c :: t) => c :: t
         | _ => of_ascii "uploaded"
         end
  end.

Definition schema_classes : list (pystr * list field) :=
  [(of_ascii "Tenant", Tenant_fields); (of_ascii "Owner", Owner_fields);
   (of_ascii "Property", Property_fields); (of_ascii "Lease", Lease_fields);
   (of_ascii "Sale", Sale_fields); (of_ascii "Expense", Expense_fields);
   (of_ascii "Document", Document_fields)].

Definition set_flag (getenv : pystr -> option pystr) (var : string) : value :=
  VStr (if truthy (getenv (of_ascii var)) then SET else NOT_SET).

(** A Unicode scalar value: a code point that is not a surrogate. *)
Definition scalar_value (c : Z) : Prop := 0 <= c <= 1114111 /\ ~ (55296 <= c <= 57343).

(** The byte with value [z] (for [0 <= z < 256]). *)
Definition byte_of (z : Z) : byte :=
  match Byte.of_N (Z.to_N z) with Some b => b | None => Byte.x00 end.

(** [chr(c).encode("utf-8")]: the UTF-8 encoding of one scalar value. *)
Definition encode_cp (c : Z) : list byte :=
  let r1 := c mod 64 in let q1 := c / 64 in
  let r2 := q1 mod 64 in let q2 := q1 / 64 in
  let r3 := q2 mod 64 in let q3 := q2 / 64 in
  if c <? 128 then [byte_of c]
  else if c <? 2048 then [byte_of (192 + q1); byte_of (128 + r1)]
  else if c <? 65536 then [byte_of (224 + q2); byte_of (128 + r2); byte_of (128 + r1)]
  else [byte_of (240 + q3); byte_of (128 + r3); byte_of (128 + r2); byte_of (128 + r1)].

(** [s.encode("utf-8")]. *)
Definition utf8_encode (s : pystr) : list byte := flat_map encode_cp s.

(** The record [upload_document] hands to [create_document]: the new
    identifier and the document built on lines 136-144. *)
Definition upload_record (s : store) (file_filename file_content_type : option pystr)
    (raw : list byte) (title tags related_type related_id : option pystr) : record :=
  let filename := or_else file_filename (of_ascii "uploaded") in
  mk_record (next_id s)
    (upload_doc filename (or_else file_content_type (of_ascii "application/octet-stream"))
                title tags related_type related_id (extract_text filename raw)).

(** The [required] list of the schema published under key [k]. *)
Definition schema_required (out : dict) (k : string) : option (list value) :=
  match dict_get out (of_ascii k) with
  | Some (VDict d) =>
      match dict_get d (of_ascii "required") with
      | Some (VList l) => Some l
      | _ => None
      end
  | _ => None
  end.

Definition field_names (l : list string) : option (list value) :=
  Some (map (fun n => VStr (of_ascii n)) l).

(** The keys of the [/test] payload, in the order of the source. *)
Definition TEST_KEYS : list pystr :=
  map of_ascii ["backend"; "database"; "database_url"; "database_name";
                "connection_status"; "collections"]%string.

(* ================================================================== *)
(** * Properties *)

(** ** Store and dict lemmas *)

Lemma coll_get_append_same (cs : list (pystr * list record)) (c : pystr) (x : record) :
  coll_get (coll_append cs c x) c = coll_get cs c ++ [x].
Proof.
  induction cs as [| [c' rs] r IH]; simpl.
  - destruct (str_eq_dec c c); congruence.
  - destruct (str_eq_dec c c') as [E | NE]; simpl.
    + destruct (str_eq_dec c c'); congruence.
    + destruct (str_eq_dec c c'); [congruence | exact IH].
Qed.

Lemma coll_get_append_other (cs : list (pystr * list record)) (c c0 : pystr) (x : record) :
  c0 <> c -> coll_get (coll_append cs c x) c0 = coll_get cs c0.
Proof.
  intros Hne; induction cs as [| [c' rs] r IH]; simpl.
  - destruct (str_eq_dec c0 c); congruence.
  - destruct (str_eq_dec c c') as [E | NE]; simpl.
    + subst c'. destruct (str_eq_dec c0 c); congruence.
    + destruct (str_eq_dec c0 c'); [reflexivity | exact IH].
Qed.

Lemma dict_set_fresh (d : dict) (k : pystr) (v : value) :
  ~ In k (map fst d) -> dict_set d k v = d ++ [(k, v)].
Proof.
  induction d as [| [k' v'] r IH]; simpl; intros Hn; [reflexivity |].
  destruct (str_eq_dec k k') as [E | NE].
  - exfalso; apply Hn; left; congruence.
  - rewrite IH; [reflexivity | tauto].
Qed.

Section Normalize.
Variable py_str : value -> pystr.

Lemma normalize_loop (doc acc : dict) :
  NoDup (map fst acc ++ map fst doc) ->
  fold_left
    (fun d kv =>
       let '(k, v) := kv in
       if str_eq_dec k (of_ascii "_id") then dict_set d k (VStr (py_str v))
       else dict_set d k v)
    doc acc = acc ++ map (render py_str) doc.
Proof.
  revert acc; induction doc as [| [k v] r IH]; intros acc Hnd; simpl.
  - rewrite app_nil_r; reflexivity.
  - assert (Hk : ~ In k (map fst acc)).
    { intros Hin. apply NoDup_remove_2 in Hnd. apply Hnd. apply in_or_app; left; exact Hin. }
    assert (Hnd' : NoDup (map fst (acc ++ [render py_str (k, v)]) ++ map fst r)).
    { rewrite map_app, <- app_assoc; simpl; exact Hnd. }
    unfold render at 1; simpl.
    destruct (str_eq_dec k (of_ascii "_id")) as [E | NE];
      rewrite dict_set_fresh by exact Hk;
      rewrite IH; try (rewrite <- app_assoc; reflexivity);
      unfold render in Hnd'; simpl in Hnd';
      [destruct (str_eq_dec k (of_ascii "_id")); [exact Hnd' | contradiction]
      |destruct (str_eq_dec k (of_ascii "_id")); [contradiction | exact Hnd']].
Qed.

End Normalize.

(* ------------------------------------------------------------------ *)
(** ** C1: the allow-list gate *)

(** C1 (corrected).  For a collection name outside the allow-list, List
    and Create fail with 404 whenever the store is configured, without
    reading it (the outcome does not depend on its contents) and without
    changing it; when the store is not configured, the earlier
    [db is None] check answers 500 instead, whatever the name. *)
Theorem unknown_collection_gate (py_str : value -> pystr) (db : option store)
    (collection : pystr) (limit : Z) (payload : dict) :
  valid_collection collection = false ->
  list_items py_str db collection limit
    = match db with None => DB_NOT_CONFIGURED | Some _ => COLLECTION_NOT_FOUND end /\
  create_item db collection payload
    = (match db with None => DB_NOT_CONFIGURED | Some _ => COLLECTION_NOT_FOUND end, db).
Proof.
  intros H; destruct db as [s |]; simpl; [rewrite H |]; split; reflexivity.
Qed.

Lemma unknown_collection_gate_witness :
  valid_collection (of_ascii "upload") = false /\
  list_items (fun _ => []) (Some (mk_store [] 0)) (of_ascii "upload") 25
    = COLLECTION_NOT_FOUND /\
  create_item (Some (mk_store [] 0)) (of_ascii "upload") []
    = (COLLECTION_NOT_FOUND, Some (mk_store [] 0)).
Proof.
  split; [reflexivity |].
  exact (unknown_collection_gate (fun _ => []) (Some (mk_store [] 0)) (of_ascii "upload")
           25 [] eq_refl).
Defined.

(** C1, counterexample: with no store configured, List on the unknown
    collection ["foo"] fails with 500, not with 404. *)
Lemma unknown_collection_no_store_500 :
  valid_collection (of_ascii "foo") = false /\
  list_items (fun _ => []) None (of_ascii "foo") 25 = DB_NOT_CONFIGURED /\
  fst (create_item None (of_ascii "foo") []) = DB_NOT_CONFIGURED /\
  DB_NOT_CONFIGURED <> COLLECTION_NOT_FOUND.
Proof.
  repeat split; try reflexivity; discriminate.
Qed.

(* ------------------------------------------------------------------ *)
(** ** C2: Create stores any payload verbatim *)

(** C2.  When the store is configured, Create on an allow-listed
    collection accepts every payload, with no check against the schemas:
    it answers with the newly assigned identifier and "Created", appends
    the payload unchanged (next to that identifier) to the named
    collection and leaves every other collection alone. *)
Theorem create_item_stores_verbatim (s : store) (collection : pystr) (payload : dict) :
  valid_collection collection = true ->
  exists s',
    create_item (Some s) collection payload
      = (Ok (VDict [(of_ascii "id", VStr (oid_str (next_id s)));
                    (of_ascii "message", VStr (of_ascii "Created"))]), Some s') /\
    coll_get (colls s') collection
      = coll_get (colls s) collection ++ [mk_record (next_id s) payload] /\
    (forall c, c <> collection -> coll_get (colls s') c = coll_get (colls s) c) /\
    next_id s' = next_id s + 1.
Proof.
  intros H; simpl; rewrite H; simpl.
  eexists; split; [reflexivity |]; simpl.
  split; [apply coll_get_append_same |].
  split; [intros c Hc; apply coll_get_append_other; exact Hc | reflexivity].
Qed.

Lemma create_item_stores_verbatim_witness :
  valid_collection (of_ascii "tenant") = true /\
  exists s',
    create_item (Some (mk_store [] 7)) (of_ascii "tenant") [(of_ascii "nickname", VInt 3)]
      = (Ok (VDict [(of_ascii "id", VStr (oid_str 7));
                    (of_ascii "message", VStr (of_ascii "Created"))]), Some s') /\
    coll_get (colls s') (of_ascii "tenant")
      = [] ++ [mk_record 7 [(of_ascii "nickname", VInt 3)]] /\
    (forall c, c <> of_ascii "tenant" -> coll_get (colls s') c = coll_get [] c) /\
    next_id s' = 7 + 1.
Proof.
  split; [reflexivity |].
  exact (create_item_stores_verbatim (mk_store [] 7) (of_ascii "tenant")
           [(of_ascii "nickname", VInt 3)] eq_refl).
Defined.

(* ------------------------------------------------------------------ *)
(** ** C3: identifier normalisation *)

(** C3.  On a document (a dict, so its keys are distinct) [normalize]
    keeps every key, in order, renders the value under [_id] as the string
    [str(v)] and passes every other value through unchanged. *)
Theorem normalize_renders_id (py_str : value -> pystr) (doc : dict) :
  NoDup (map fst doc) ->
  normalize py_str doc = map (render py_str) doc.
Proof.
  intros H; unfold normalize; apply (normalize_loop py_str doc []); exact H.
Qed.

Lemma normalize_renders_id_witness :
  NoDup (map fst [(of_ascii "_id", VObjectId 255); (of_ascii "title", VInt 1)]) /\
  normalize oid_render [(of_ascii "_id", VObjectId 255); (of_ascii "title", VInt 1)]
    = [(of_ascii "_id", VStr (oid_str 255)); (of_ascii "title", VInt 1)].
Proof.
  assert (Hnd : NoDup (map fst [(of_ascii "_id", VObjectId 255); (of_ascii "title", VInt 1)])).
  { simpl; constructor; [simpl; intros [H | []]; discriminate | constructor; [tauto | constructor]]. }
  split; [exact Hnd |].
  rewrite (normalize_renders_id oid_render _ Hnd); reflexivity.
Defined.

(* ------------------------------------------------------------------ *)
(** ** C4: the extraction cascade *)

(** C4.  The extracted text is decided by the ordered case-insensitive
    cascade .csv/.tsv (decoded bytes), .xlsx/.xls (the Excel note), .pdf
    (the PDF note), otherwise absent; e.g. [sheet.xlsx], [notes.pdf] and
    [photo.png] give the note texts and nothing. *)
Theorem extract_text_cascade (filename : pystr) (raw : list byte) :
  extract_text filename raw = extract_cascade filename raw /\
  extract_text (of_ascii "sheet.xlsx") raw
    = Some (of_ascii "Excel file uploaded (preview disabled).") /\
  extract_text (of_ascii "notes.pdf") raw
    = Some (of_ascii "PDF uploaded (text extraction not available in lightweight mode).") /\
  extract_text (of_ascii "photo.png") raw = None.
Proof.
  split; [| repeat split; reflexivity].
  unfold extract_text, extract_cascade, endswith_any; simpl.
  rewrite !orb_false_r.
  destruct (endswith (py_lower filename) (of_ascii ".csv")
            || endswith (py_lower filename) (of_ascii ".tsv")); [reflexivity |].
  destruct (endswith (py_lower filename) (of_ascii ".xlsx")
            || endswith (py_lower filename) (of_ascii ".xls")); reflexivity.
Qed.

(* ------------------------------------------------------------------ *)
(** ** C5: lossy decoding of CSV/TSV uploads *)

(** C5 (corrected).  For a filename ending in .csv or .tsv (any case) the
    extracted text is the UTF-8 decoding of the bytes with undecodable
    bytes dropped ([errors="ignore"]); the decoding is total, so with a
    configured store the upload always succeeds; [report.csv] with
    [a,b\nc,d] gives exactly [a,b\nc,d]. *)
Theorem csv_upload_decodes_ignoring (s : store) (filename : pystr)
    (content_type : option pystr) (raw : list byte)
    (title tags related_type related_id : option pystr) :
  endswith_any (py_lower filename) [of_ascii ".csv"; of_ascii ".tsv"] = true ->
  extract_text filename raw = Some (decode_ignore raw) /\
  (exists body s',
     upload_document (Some s) (Some filename) content_type raw title tags
                     related_type related_id = (Ok body, Some s')) /\
  extract_text (of_ascii "report.csv") (list_byte_of_string "a,b
c,d") = Some (of_ascii "a,b
c,d").
Proof.
  intros H.
  assert (He : extract_text filename raw = Some (decode_ignore raw)).
  { unfold extract_text; rewrite H; reflexivity. }
  split; [exact He | split; [| reflexivity]].
  simpl. do 2 eexists. reflexivity.
Qed.

Lemma csv_upload_decodes_ignoring_witness :
  endswith_any (py_lower (of_ascii "Data.TSV")) [of_ascii ".csv"; of_ascii ".tsv"] = true /\
  extract_text (of_ascii "Data.TSV") [Byte.x41; Byte.xff; Byte.x42]
    = Some (decode_ignore [Byte.x41; Byte.xff; Byte.x42]) /\
  (exists body s',
     upload_document (Some (mk_store [] 0)) (Some (of_ascii "Data.TSV")) None
       [Byte.x41; Byte.xff; Byte.x42] None None (Some (of_ascii "general")) None
       = (Ok body, Some s')) /\
  extract_text (of_ascii "report.csv") (list_byte_of_string "a,b
c,d") = Some (of_ascii "a,b
c,d").
Proof.
  split; [reflexivity |].
  exact (csv_upload_decodes_ignoring (mk_store [] 0) (of_ascii "Data.TSV") None
           [Byte.x41; Byte.xff; Byte.x42] None None (Some (of_ascii "general")) None
           eq_refl).
Defined.

(** C5, counterexample: the undecodable byte 0xFF in [x.csv] is dropped,
    giving the empty text, where replacing it would give U+FFFD. *)
Lemma csv_undecodable_byte_dropped :
  extract_text (of_ascii "x.csv") [Byte.xff] = Some [] /\
  decode_replace [Byte.xff] = [65533] /\
  extract_text (of_ascii "x.csv") [Byte.xff] <> Some (decode_replace [Byte.xff]).
Proof.
  split; [reflexivity | split; [reflexivity |]].
  vm_compute; discriminate.
Qed.

(* ------------------------------------------------------------------ *)
(** ** C6: tags *)

Lemma map_filter_comm {A B} (f : A -> B) (p : B -> bool) (l : list A) :
  map f (filter (fun x => p (f x)) l) = filter p (map f l).
Proof.
  induction l as [| x r IH]; simpl; [reflexivity |].
  destruct (p (f x)); simpl; rewrite IH; reflexivity.
Qed.

(** C6.  The stored tags are the comma-separated pieces of the input,
    trimmed, the empty ones dropped, in input order and with duplicates
    kept; [" a, b ,,c "] gives [["a";"b";"c"]] and no input gives []. *)
Theorem parse_tags_split_trim (tags : option pystr) :
  parse_tags tags = tags_spec tags /\
  parse_tags (Some (of_ascii " a, b ,,c ")) = map of_ascii ["a"; "b"; "c"]%string /\
  parse_tags (Some (of_ascii "x, x")) = map of_ascii ["x"; "x"]%string /\
  parse_tags None = [].
Proof.
  split; [| repeat split; reflexivity].
  unfold parse_tags, tags_spec.
  destruct tags as [[| c t] |]; simpl; try reflexivity.
  apply (map_filter_comm strip nonempty).
Qed.

(* ------------------------------------------------------------------ *)
(** ** C7: the preview *)

(** C7 (corrected).  With a configured store, the upload answers with the
    newly assigned identifier and a preview that is the first 1000 code
    points of the extracted text when that text is present and non-empty,
    and null when it is absent or empty. *)
Theorem upload_preview (s : store) (file_filename content_type : option pystr)
    (raw : list byte) (title tags related_type related_id : option pystr) :
  let extracted := extract_text (or_else file_filename (of_ascii "uploaded")) raw in
  fst (upload_document (Some s) file_filename content_type raw title tags
                       related_type related_id)
  = Ok (VDict [(of_ascii "id", VStr (oid_str (next_id s)));
               (of_ascii "message", VStr (of_ascii "Uploaded"));
               (of_ascii "preview",
                match extracted with
                | Some (c :: t) => VStr (firstn 1000 (c :: t))
                | _ => VNone
                end)]).
Proof.
  simpl. unfold preview.
  destruct (extract_text _ raw) as [[| c t] |]; reflexivity.
Qed.

(** C7, counterexample: an empty [e.csv] has the extracted text [""]
    (present, and stored as such) but the preview is null, not [""]. *)
Lemma upload_empty_csv_null_preview :
  extract_text (of_ascii "e.csv") [] = Some [] /\
  fst (upload_document (Some (mk_store [] 0)) (Some (of_ascii "e.csv")) None []
         None None (Some (of_ascii "general")) None)
  = Ok (VDict [(of_ascii "id", VStr (oid_str 0));
               (of_ascii "message", VStr (of_ascii "Uploaded"));
               (of_ascii "preview", VNone)]) /\
  VNone <> VStr (firstn 1000 []).
Proof.
  split; [reflexivity | split; [reflexivity | discriminate]].
Qed.

(* ------------------------------------------------------------------ *)
(** ** C10: the stored title *)

(** C10.  The document an upload stores (appended to the [document]
    collection under the new identifier) has as title the caller's
    non-empty title, else the non-empty filename, else ["uploaded"]; it is
    never empty. *)
Theorem upload_title_fallback (s : store) (file_filename content_type : option pystr)
    (raw : list byte) (title tags related_type related_id : option pystr) :
  exists s' doc,
    snd (upload_document (Some s) file_filename content_type raw title tags
                         related_type related_id) = Some s' /\
    coll_get (colls s') (of_ascii "document")
      = coll_get (colls s) (of_ascii "document") ++ [mk_record (next_id s) doc] /\
    dict_get doc (of_ascii "title") = Some (VStr (title_spec title file_filename)) /\
    title_spec title file_filename <> [].
Proof.
  simpl. do 2 eexists. split; [reflexivity |].
  split; [apply coll_get_append_same |].
  split.
  - simpl.
    destruct title as [[| c t] |]; destruct file_filename as [[| c' t'] |]; reflexivity.
  - destruct title as [[| c t] |]; destruct file_filename as [[| c' t'] |];
      simpl; discriminate.
Qed.

(* ------------------------------------------------------------------ *)
(** ** C8: [/schema] keys *)

Lemma schema_classes_in_module (n : pystr) (fs : list field) :
  In (n, fs) schema_classes -> getattr schemas_module n = Some (AClass true fs).
Proof.
  simpl; intros Hin.
  repeat (destruct Hin as [Hin | Hin]; [injection Hin as <- <-; reflexivity |]).
  destruct Hin.
Qed.

(** C8.  [/schema] on the registry answers a map whose keys are exactly
    the seven lower-cased type names (the allow-list, in order), each
    bound to the JSON schema of the registry class of that name. *)
Theorem get_schema_keys :
  exists out,
    get_schema (Returns schemas_module) = Ok (VDict out) /\
    map fst out = VALID_COLLECTIONS /\
    Forall (fun kv => exists name fs,
                getattr schemas_module name = Some (AClass true fs) /\
                fst kv = py_lower name /\ snd kv = model_json_schema name fs) out.
Proof.
  exists (map (fun p => (py_lower (fst p), model_json_schema (fst p) (snd p))) schema_classes).
  split; [vm_compute; reflexivity |].
  split; [vm_compute; reflexivity |].
  apply Forall_forall; intros kv Hin.
  apply in_map_iff in Hin; destruct Hin as [[n fs] [<- Hin]].
  exists n, fs; split; [apply schema_classes_in_module; exact Hin | split; reflexivity].
Qed.

(* ------------------------------------------------------------------ *)
(** ** C9: diagnostics never fail *)

(** C9 (corrected).  [/test] answers a status payload in every state of
    the store and of the server connection.  When the store handle is
    initialised the payload tells for [DATABASE_URL] and [DATABASE_NAME]
    whether each is set to a non-empty value (not the value) and lists at
    most the first 20 collection names; when listing them fails, none is
    listed and the [database] field describes the error with the first 80
    characters of its text; when the handle is not initialised both
    variable fields are null, no collection is listed and the [database]
    field says so. *)
Theorem test_database_total (db : option store) (fault : option pystr)
    (getenv : pystr -> option pystr) :
  exists d cs,
    test_database db fault getenv = Ok (VDict d) /\
    dict_get d (of_ascii "database_url")
      = Some (match db with Some _ => set_flag getenv "DATABASE_URL" | None => VNone end) /\
    dict_get d (of_ascii "database_name")
      = Some (match db with Some _ => set_flag getenv "DATABASE_NAME" | None => VNone end) /\
    dict_get d (of_ascii "database")
      = Some (VStr (match db, fault with
                    | Some _, None => CHECK ++ of_ascii " Connected & Working"
                    | Some _, Some e => WARN ++ of_ascii " Connected but Error: " ++ firstn 80 e
                    | None, _ => WARN ++ of_ascii " Available but not initialized"
                    end)) /\
    dict_get d (of_ascii "collections") = Some (VList (map VStr cs)) /\
    (List.length cs <= 20)%nat /\
    cs = match db, fault with
         | Some s, None => firstn 20 (map fst (colls s))
         | _, _ => []
         end.
Proof.
  destruct db as [s |]; [destruct fault as [e |] |].
  - eexists; exists []; split; [reflexivity |].
    split; [reflexivity | split; [reflexivity | split; [reflexivity | split; [reflexivity |]]]].
    split; [simpl; lia | reflexivity].
  - exists (dict_set
              (dict_set
                 (dict_set
                    (dict_set
                       [(of_ascii "backend", VStr (CHECK ++ of_ascii " Running"));
                        (of_ascii "database", VStr (CROSS ++ of_ascii " Not Available"));
                        (of_ascii "database_url", VNone);
                        (of_ascii "database_name", VNone);
                        (of_ascii "connection_status", VStr (of_ascii "Not Connected"));
                        (of_ascii "collections", VList [])]
                       (of_ascii "database") (VStr (CHECK ++ of_ascii " Connected & Working")))
                    (of_ascii "database_url") (set_flag getenv "DATABASE_URL"))
                 (of_ascii "database_name") (set_flag getenv "DATABASE_NAME"))
              (of_ascii "collections") (VList (map VStr (firstn 20 (map fst (colls s)))))).
    exists (firstn 20 (map fst (colls s))).
    split; [reflexivity |].
    split; [reflexivity | split; [reflexivity | split; [reflexivity | split; [reflexivity |]]]].
    split; [rewrite length_firstn; lia | reflexivity].
  - eexists; exists []; split; [reflexivity |].
    split; [reflexivity | split; [reflexivity | split; [reflexivity | split; [reflexivity |]]]].
    split; [simpl; lia | reflexivity].
Qed.

(** C9, counterexample: with no store handle, the payload is the same
    whether both variables are set or neither is, so it does not report
    whether they are set. *)
Lemma test_no_store_env_unreported :
  test_database None None (fun _ => Some (of_ascii "x"))
    = test_database None None (fun _ => None) /\
  truthy ((fun _ : pystr => Some (of_ascii "x")) (of_ascii "DATABASE_URL")) = true /\
  truthy ((fun _ : pystr => @None pystr) (of_ascii "DATABASE_URL")) = false.
Proof. repeat split; reflexivity. Qed.

(* ------------------------------------------------------------------ *)
(** ** Further properties of the handlers and of the decoding they use *)

Lemma lstrip_fixed (l : pystr) :
  lstrip l = l <-> match l with [] => True | a :: _ => is_space a = false end.
Proof.
  destruct l as [| a r]; simpl; [tauto |].
  split.
  - intros H. destruct (is_space a) eqn:E; [| reflexivity].
    exfalso. assert (Hl : (List.length (lstrip r) <= List.length r)%nat).
    { clear. induction r as [| x r IH]; simpl; [lia |]. destruct (is_space x); simpl; lia. }
    rewrite H in Hl; simpl in Hl; lia.
  - intros H; rewrite H; reflexivity.
Qed.

Lemma lstrip_split (l : pystr) : exists sp, l = sp ++ lstrip l.
Proof.
  induction l as [| a r [sp IH]]; simpl; [exists []; reflexivity |].
  destruct (is_space a); [exists (a :: sp); simpl; congruence | exists []; reflexivity].
Qed.

Lemma lstrip_idem (l : pystr) : lstrip (lstrip l) = lstrip l.
Proof.
  induction l as [| a r IH]; simpl; [reflexivity |].
  destruct (is_space a) eqn:E; [exact IH | simpl; rewrite E; reflexivity].
Qed.

Lemma lstrip_app_fixed (x y : pystr) :
  x <> [] -> lstrip x = x -> lstrip (x ++ y) = x ++ y.
Proof.
  intros Hne Hx; destruct x as [| a r]; [congruence |].
  apply lstrip_fixed in Hx; simpl; rewrite Hx; reflexivity.
Qed.

Lemma strip_stripped (s : pystr) :
  lstrip (strip s) = strip s /\ lstrip (rev (strip s)) = rev (strip s).
Proof.
  unfold strip; rewrite rev_involutive; split; [| apply lstrip_idem].
  set (u := lstrip s).
  assert (Hu : lstrip u = u) by apply lstrip_idem.
  destruct (lstrip_split (rev u)) as [sp Hsp].
  destruct (rev (lstrip (rev u))) as [| a r] eqn:Er; [reflexivity |].
  assert (Hu' : u = (a :: r) ++ rev sp).
  { rewrite <- Er, <- rev_app_distr, <- Hsp, rev_involutive; reflexivity. }
  apply lstrip_fixed. rewrite Hu' in Hu. simpl in Hu.
  destruct (is_space a) eqn:E; [| reflexivity].
  exfalso. apply (f_equal (@List.length Z)) in Hu.
  simpl in Hu.
  assert (Hl : forall l, (List.length (lstrip l) <= List.length l)%nat).
  { clear. induction l as [| x r IH]; simpl; [lia |]. destruct (is_space x); simpl; lia. }
  specialize (Hl (r ++ rev sp)); lia.
Qed.

Lemma strip_idem (s : pystr) : strip (strip s) = strip s.
Proof.
  destruct (strip_stripped s) as [H1 H2].
  unfold strip at 1. rewrite H1, H2, rev_involutive; reflexivity.
Qed.

Lemma lstrip_in (l : pystr) c : In c (lstrip l) -> In c l.
Proof.
  induction l as [| a r IH]; simpl; [tauto |].
  destruct (is_space a); simpl; tauto.
Qed.

Lemma strip_in (s : pystr) c : In c (strip s) -> In c s.
Proof.
  unfold strip; intros H. apply in_rev, lstrip_in, in_rev, lstrip_in in H. exact H.
Qed.

Lemma split_comma_no_comma (s : pystr) :
  Forall (fun p => ~ In 44 p) (split_comma s).
Proof.
  induction s as [| c r IH]; simpl.
  - constructor; [simpl; tauto | constructor].
  - destruct (c =? 44) eqn:E.
    + constructor; [simpl; tauto | exact IH].
    + destruct (split_comma r) as [| p ps]; inversion IH; subst.
      * constructor; [| constructor]. simpl. apply Z.eqb_neq in E. intuition.
      * constructor; [| assumption]. simpl. apply Z.eqb_neq in E. intuition.
Qed.

Lemma split_comma_length (s : pystr) :
  List.length (split_comma s) = S (count_occ Z.eq_dec s 44).
Proof.
  induction s as [| c r IH]; simpl; [reflexivity |].
  destruct (c =? 44) eqn:E.
  - apply Z.eqb_eq in E; subst; simpl. destruct (Z.eq_dec 44 44); [simpl; lia | congruence].
  - apply Z.eqb_neq in E. destruct (Z.eq_dec c 44); [congruence |].
    destruct (split_comma r); simpl in *; lia.
Qed.

Lemma strip_pieces_well_formed (l : list pystr) :
  Forall (fun p => ~ In 44 p) l ->
  Forall (fun t => t <> [] /\ strip t = t /\ ~ In 44 t)
         (map strip (filter (fun t => nonempty (strip t)) l)).
Proof.
  induction 1 as [| p ps Hp Hps IH]; simpl; [constructor |].
  destruct (nonempty (strip p)) eqn:E; simpl; [| exact IH].
  constructor; [| exact IH].
  split; [destruct (strip p); simpl in E; congruence |].
  split; [apply strip_idem |].
  intros H; apply Hp, strip_in, H.
Qed.

(** Every stored tag is non-empty, already trimmed ([strip] leaves it
    unchanged) and free of commas, whatever the tags input. *)
Theorem parse_tags_well_formed (tags : option pystr) :
  Forall (fun t => t <> [] /\ strip t = t /\ ~ In 44 t) (parse_tags tags).
Proof.
  unfold parse_tags; apply strip_pieces_well_formed.
  destruct tags as [t |]; [destruct (truthy (Some t)); [apply split_comma_no_comma | constructor] | constructor].
Qed.

(** A tags string with [n] commas yields at most [n + 1] tags. *)
Theorem parse_tags_count (t : pystr) :
  (List.length (parse_tags (Some t)) <= S (count_occ Z.eq_dec t 44%Z))%nat.
Proof.
  unfold parse_tags. rewrite length_map.
  destruct (truthy (Some t)).
  - rewrite <- split_comma_length. apply filter_length_le.
  - simpl; lia.
Qed.

Lemma bz_range (b : byte) : 0 <= bz b < 256.
Proof. destruct b; vm_compute; split; congruence. Qed.

Ltac bool_facts :=
  repeat match goal with
  | H : (_ && _) = true |- _ => apply andb_true_iff in H; destruct H
  | H : (_ && _) = false |- _ => apply andb_false_iff in H; destruct H
  | H : (_ <=? _) = true |- _ => apply Z.leb_le in H
  | H : (_ <=? _) = false |- _ => apply Z.leb_gt in H
  | H : (_ <? _) = true |- _ => apply Z.ltb_lt in H
  | H : (_ <? _) = false |- _ => apply Z.ltb_ge in H
  | H : (_ =? _) = true |- _ => apply Z.eqb_eq in H
  | H : (_ =? _) = false |- _ => apply Z.eqb_neq in H
  end.

Ltac split_ifs :=
  repeat match goal with
  | |- context [if ?c then _ else _] =>
      let E := fresh "E" in destruct c eqn:E
  end.

Ltac byte_ranges :=
  repeat match goal with
  | x : byte |- _ =>
      lazymatch goal with
      | _ : 0 <= bz x < 256 |- _ => fail
      | _ => pose proof (bz_range x)
      end
  end.

Ltac decode_cases :=
  repeat (cbv beta iota zeta;
          match goal with
          | |- context [match ?l with [] => _ | _ :: _ => _ end] =>
              let x := fresh "x" in let r := fresh "r" in destruct l as [| x r]
          | |- context [if ?c then _ else _] =>
              let E := fresh "E" in destruct c eqn:E
          end);
  bool_facts.

Lemma utf8_decode_ind (P : list byte -> Prop) :
  (forall bs, (forall bs', (List.length bs' < List.length bs)%nat -> P bs') -> P bs) ->
  forall bs, P bs.
Proof.
  intros H bs. remember (List.length bs) as n eqn:En.
  revert bs En. induction n as [n IH] using (well_founded_induction lt_wf).
  intros bs ->. apply H. intros bs' Hl. apply (IH _ Hl bs' eq_refl).
Qed.

(** Decoding, with an error handler that emits scalar values (such as
    [ignore] or [replace]), only ever yields Unicode scalar values: code
    points up to U+10FFFF and no surrogate. *)
Theorem decode_scalar_values (on_error : pystr) (raw : list byte) :
  Forall scalar_value on_error ->
  Forall scalar_value (utf8_decode on_error raw).
Proof.
  intros Herr. induction raw as [bs IH] using utf8_decode_ind.
  destruct bs as [| b0 rest]; [constructor |].
  cbn [utf8_decode]. unfold in_range, cont, second_lo, second_hi.
  decode_cases.
  all: try exact Herr.
  all: try (apply Forall_app; split; [exact Herr | apply IH; simpl; lia]).
  all: try (constructor; [| apply IH; simpl; lia]).
  all: unfold scalar_value.
  all: unfold in_range in *; bool_facts;
       repeat match goal with
       | H : context [if ?c then _ else _] |- _ =>
           let E := fresh "E" in destruct c eqn:E
       end; bool_facts.
  all: byte_ranges; lia.
Qed.

Lemma decode_scalar_values_witness :
  Forall scalar_value [65533] /\
  Forall scalar_value (utf8_decode [65533] [Byte.x41; Byte.xff; Byte.xe2; Byte.x82; Byte.xac]).
Proof.
  assert (H : Forall scalar_value [65533]) by (constructor; [unfold scalar_value; lia | constructor]).
  split; [exact H | apply (decode_scalar_values [65533] _ H)].
Defined.

(** The text decoded from an upload never has more characters than the
    upload has bytes. *)
Theorem decode_ignore_length (raw : list byte) :
  (List.length (decode_ignore raw) <= List.length raw)%nat.
Proof.
  unfold decode_ignore.
  induction raw as [bs IH] using utf8_decode_ind.
  destruct bs as [| b0 rest]; [simpl; lia |].
  cbn [utf8_decode]. unfold in_range, cont, second_lo, second_hi.
  decode_cases.
  all: cbn [app List.length] in *.
  all: try lia.
  all: match goal with
       | |- context [utf8_decode [] ?r] =>
           let Hr := fresh in
           assert (Hr := IH r ltac:(cbn [List.length]; lia)); cbn [List.length app] in *; lia
       end.
Qed.

(** An all-ASCII upload decodes byte for byte. *)
Theorem decode_ascii (raw : list byte) :
  Forall (fun b => bz b < 128) raw -> decode_ignore raw = map bz raw.
Proof.
  unfold decode_ignore; induction 1 as [| b r Hb Hr IH]; [reflexivity |].
  cbn [utf8_decode]. cbv zeta.
  apply Z.ltb_lt in Hb; rewrite Hb, IH; reflexivity.
Qed.

Lemma decode_ascii_witness :
  Forall (fun b => bz b < 128) [Byte.x61; Byte.x2c; Byte.x62] /\
  decode_ignore [Byte.x61; Byte.x2c; Byte.x62] = map bz [Byte.x61; Byte.x2c; Byte.x62].
Proof.
  assert (H : Forall (fun b => bz b < 128) [Byte.x61; Byte.x2c; Byte.x62])
    by (repeat constructor).
  split; [exact H | apply (decode_ascii _ H)].
Defined.

Lemma bz_byte_of (z : Z) : 0 <= z < 256 -> bz (byte_of z) = z.
Proof.
  intros Hz. unfold byte_of, bz.
  destruct (Byte.of_N (Z.to_N z)) as [b |] eqn:E.
  - apply Byte.to_of_N in E. rewrite E. apply Z2N.id; lia.
  - apply Byte.of_N_None_iff in E. lia.
Qed.

Lemma in_range_true (lo hi b : Z) : lo <= b <= hi -> in_range lo hi b = true.
Proof. intros H; unfold in_range; apply andb_true_iff; split; apply Z.leb_le; lia. Qed.

Lemma in_range_false (lo hi b : Z) : b < lo \/ hi < b -> in_range lo hi b = false.
Proof. intros H; unfold in_range; apply andb_false_iff; destruct H; [left | right]; apply Z.leb_gt; lia. Qed.

Lemma second_ok (b c : Z) :
  224 <= b <= 244 -> 128 <= c <= 191 ->
  (b = 224 -> 160 <= c) -> (b = 237 -> c <= 159) ->
  (b = 240 -> 144 <= c) -> (b = 244 -> c <= 143) ->
  in_range (second_lo b) (second_hi b) c = true.
Proof.
  intros Hb Hc H1 H2 H3 H4. apply in_range_true. unfold second_lo, second_hi.
  destruct (b =? 224) eqn:E1; destruct (b =? 240) eqn:E2;
  destruct (b =? 237) eqn:E3; destruct (b =? 244) eqn:E4; bool_facts; lia.
Qed.

Lemma decode_two (oe : pystr) (b c : byte) (rest : list byte) :
  194 <= bz b <= 223 -> 128 <= bz c <= 191 ->
  utf8_decode oe (b :: c :: rest) = (64 * (bz b - 192) + (bz c - 128)) :: utf8_decode oe rest.
Proof.
  intros Hb Hc. cbn [utf8_decode]. cbv zeta.
  replace (bz b <? 128) with false by (symmetry; apply Z.ltb_ge; lia).
  rewrite (in_range_true 194 223) by lia. unfold cont. rewrite in_range_true by lia.
  reflexivity.
Qed.

Lemma decode_three (oe : pystr) (b c1 c2 : byte) (rest : list byte) :
  224 <= bz b <= 239 -> in_range (second_lo (bz b)) (second_hi (bz b)) (bz c1) = true ->
  128 <= bz c2 <= 191 ->
  utf8_decode oe (b :: c1 :: c2 :: rest)
  = (4096 * (bz b - 224) + 64 * (bz c1 - 128) + (bz c2 - 128)) :: utf8_decode oe rest.
Proof.
  intros Hb H1 Hc2. cbn [utf8_decode]. cbv zeta.
  replace (bz b <? 128) with false by (symmetry; apply Z.ltb_ge; lia).
  rewrite (in_range_false 194 223) by lia. rewrite (in_range_true 224 239) by lia.
  rewrite H1. unfold cont. rewrite (in_range_true 128 191 (bz c2)) by lia.
  reflexivity.
Qed.

Lemma decode_four (oe : pystr) (b c1 c2 c3 : byte) (rest : list byte) :
  240 <= bz b <= 244 -> in_range (second_lo (bz b)) (second_hi (bz b)) (bz c1) = true ->
  128 <= bz c2 <= 191 -> 128 <= bz c3 <= 191 ->
  utf8_decode oe (b :: c1 :: c2 :: c3 :: rest)
  = (262144 * (bz b - 240) + 4096 * (bz c1 - 128) + 64 * (bz c2 - 128) + (bz c3 - 128))
      :: utf8_decode oe rest.
Proof.
  intros Hb H1 Hc2 Hc3. cbn [utf8_decode]. cbv zeta.
  replace (bz b <? 128) with false by (symmetry; apply Z.ltb_ge; lia).
  rewrite (in_range_false 194 223) by lia. rewrite (in_range_false 224 239) by lia.
  rewrite (in_range_true 240 244) by lia.
  rewrite H1. unfold cont.
  rewrite (in_range_true 128 191 (bz c2)) by lia.
  rewrite (in_range_true 128 191 (bz c3)) by lia.
  reflexivity.
Qed.

Lemma decode_encode_cp (c : Z) (rest : list byte) :
  scalar_value c ->
  utf8_decode [] (encode_cp c ++ rest) = c :: utf8_decode [] rest.
Proof.
  intros [Hc Hs]. unfold encode_cp.
  pose proof (Z.div_mod c 64 ltac:(lia)) as D1.
  pose proof (Z.mod_pos_bound c 64 ltac:(lia)) as B1.
  set (q1 := c / 64) in *; set (r1 := c mod 64) in *.
  pose proof (Z.div_mod q1 64 ltac:(lia)) as D2.
  pose proof (Z.mod_pos_bound q1 64 ltac:(lia)) as B2.
  set (q2 := q1 / 64) in *; set (r2 := q1 mod 64) in *.
  pose proof (Z.div_mod q2 64 ltac:(lia)) as D3.
  pose proof (Z.mod_pos_bound q2 64 ltac:(lia)) as B3.
  set (q3 := q2 / 64) in *; set (r3 := q2 mod 64) in *.
  clearbody q1 r1 q2 r2 q3 r3.
  cbv zeta.
  destruct (c <? 128) eqn:E1; bool_facts.
  { cbn [app]. cbn [utf8_decode]. cbv zeta.
    rewrite bz_byte_of by lia. replace (c <? 128) with true by (symmetry; apply Z.ltb_lt; lia).
    reflexivity. }
  destruct (c <? 2048) eqn:E2; bool_facts.
  { cbn [app]. rewrite decode_two; rewrite ?bz_byte_of; try lia. f_equal; lia. }
  destruct (c <? 65536) eqn:E3; bool_facts.
  { cbn [app]. rewrite decode_three; rewrite ?bz_byte_of; try lia.
    - f_equal; lia.
    - apply second_ok; lia. }
  cbn [app]. rewrite decode_four; rewrite ?bz_byte_of; try lia.
  - f_equal; lia.
  - apply second_ok; lia.
Qed.

(** Round trip: the UTF-8 encoding of any text made of scalar values
    decodes back to that text, so a well-formed UTF-8 CSV/TSV upload loses
    nothing. *)
Theorem decode_encode_roundtrip (s : pystr) :
  Forall scalar_value s -> decode_ignore (utf8_encode s) = s.
Proof.
  unfold decode_ignore, utf8_encode.
  induction 1 as [| c r Hc Hr IH]; [reflexivity |].
  simpl flat_map. rewrite decode_encode_cp by exact Hc. rewrite IH; reflexivity.
Qed.

Lemma decode_encode_roundtrip_witness :
  Forall scalar_value [233; 8364; 128512] /\
  decode_ignore (utf8_encode [233; 8364; 128512]) = [233; 8364; 128512].
Proof.
  assert (H : Forall scalar_value [233; 8364; 128512])
    by (repeat constructor; unfold scalar_value; lia).
  split; [exact H | apply (decode_encode_roundtrip _ H)].
Defined.

(** With no store, an upload fails with 500 and nothing changes.  With a
    store, it appends exactly one record, under the next identifier, to
    the [document] collection, leaves every other collection unchanged and
    advances the identifier counter by one. *)
Theorem upload_store_effect (s : store) (file_filename file_content_type : option pystr)
    (raw : list byte) (title tags related_type related_id : option pystr) :
  upload_document None file_filename file_content_type raw title tags related_type related_id
    = (HttpError 500 (of_ascii "Database not configured"), None) /\
  exists s',
    snd (upload_document (Some s) file_filename file_content_type raw title tags
                         related_type related_id) = Some s' /\
    coll_get (colls s') (of_ascii "document")
      = coll_get (colls s) (of_ascii "document")
        ++ [upload_record s file_filename file_content_type raw title tags related_type related_id] /\
    (forall c, c <> of_ascii "document" -> coll_get (colls s') c = coll_get (colls s) c) /\
    next_id s' = next_id s + 1.
Proof.
  split; [reflexivity |].
  eexists; split; [reflexivity |]; simpl.
  split; [apply coll_get_append_same |].
  split; [intros c Hc; apply coll_get_append_other; exact Hc | reflexivity].
Qed.

(** The stored [filename] and [content_type] are never empty: a missing
    filename becomes ["uploaded"] and a missing content type
    ["application/octet-stream"]. *)
Theorem upload_defaults_nonempty (s : store) (file_filename file_content_type : option pystr)
    (raw : list byte) (title tags related_type related_id : option pystr) :
  let d := body (upload_record s file_filename file_content_type raw title tags
                               related_type related_id) in
  exists f ct,
    dict_get d (of_ascii "filename") = Some (VStr f) /\ f <> [] /\
    (file_filename = None -> f = of_ascii "uploaded") /\
    dict_get d (of_ascii "content_type") = Some (VStr ct) /\ ct <> [] /\
    (file_content_type = None -> ct = of_ascii "application/octet-stream").
Proof.
  cbv zeta. exists (or_else file_filename (of_ascii "uploaded")),
                (or_else file_content_type (of_ascii "application/octet-stream")).
  split; [reflexivity |].
  split; [destruct file_filename as [[|]|]; simpl; discriminate |].
  split; [intros ->; reflexivity |].
  split; [reflexivity |].
  split; [destruct file_content_type as [[|]|]; simpl; discriminate |].
  intros ->; reflexivity.
Qed.

(** The upload response is [{id, message, preview}] and the stored
    [extracted_text] is the extraction result; the preview, when not
    null, is a prefix of that text of at most 1000 characters, and it is
    exactly 1000 characters long whenever it cuts something off. *)
Theorem upload_preview_prefix (s : store) (file_filename file_content_type : option pystr)
    (raw : list byte) (title tags related_type related_id : option pystr) :
  exists pv,
    fst (upload_document (Some s) file_filename file_content_type raw title tags
                         related_type related_id)
      = Ok (VDict [(of_ascii "id", VStr (oid_str (next_id s)));
                   (of_ascii "message", VStr (of_ascii "Uploaded"));
                   (of_ascii "preview", pv)]) /\
    dict_get (body (upload_record s file_filename file_content_type raw title tags
                                  related_type related_id)) (of_ascii "extracted_text")
      = Some (opt_value (extract_text (or_else file_filename (of_ascii "uploaded")) raw)) /\
    match pv with
    | VStr p => exists t rest,
        extract_text (or_else file_filename (of_ascii "uploaded")) raw = Some t /\
        t = p ++ rest /\ (List.length p <= 1000)%nat /\ (rest <> [] -> List.length p = 1000%nat)
    | VNone => True
    | _ => False
    end.
Proof.
  eexists; split; [reflexivity |]; split; [reflexivity |].
  unfold preview.
  destruct (extract_text _ raw) as [[| c t] |]; cbn [truthy]; try exact I.
  exists (c :: t), (skipn 1000 (c :: t)).
  split; [reflexivity |]. split; [symmetry; apply firstn_skipn |].
  rewrite length_firstn. split; [lia |].
  intros Hr. destruct (Nat.le_gt_cases (List.length (c :: t)) 1000) as [Hle | Hgt].
  - rewrite skipn_all2 in Hr by exact Hle; congruence.
  - lia.
Qed.

Lemma dict_set_keys_incl (d : dict) (k : pystr) (v : value) :
  incl (map fst (dict_set d k v)) (k :: map fst d).
Proof.
  induction d as [| [k' v'] r IH]; simpl; [apply incl_refl |].
  destruct (str_eq_dec k k'); simpl.
  - intros x [Hx | Hx]; simpl; tauto.
  - intros x [Hx | Hx]; [simpl; tauto |].
    apply IH in Hx; simpl in *; tauto.
Qed.

Lemma dict_set_nodup (d : dict) (k : pystr) (v : value) :
  NoDup (map fst d) -> NoDup (map fst (dict_set d k v)).
Proof.
  induction d as [| [k' v'] r IH]; simpl; intros Hnd.
  - constructor; [simpl; tauto | constructor].
  - inversion Hnd as [| ? ? Hn Hr]; subst.
    destruct (str_eq_dec k k'); simpl; constructor; try assumption.
    + intros Hin. apply dict_set_keys_incl in Hin. simpl in Hin.
      destruct Hin as [-> | Hin]; [congruence | contradiction].
    + apply IH; assumption.
Qed.

Lemma dict_get_set (d : dict) (k k' : pystr) (v : value) :
  dict_get (dict_set d k' v) k = if str_eq_dec k k' then Some v else dict_get d k.
Proof.
  induction d as [| [k0 v0] r IH]; simpl.
  - reflexivity.
  - destruct (str_eq_dec k' k0) as [-> | Hne]; simpl.
    + destruct (str_eq_dec k k0); reflexivity.
    + rewrite IH. destruct (str_eq_dec k k0) as [-> | ?], (str_eq_dec k0 k') ; try congruence;
      destruct (str_eq_dec k k'); congruence.
Qed.

Lemma dict_get_app_single (l : dict) (k k' : pystr) (v : value) :
  dict_get (l ++ [(k', v)]) k
  = match dict_get l k with
    | Some w => Some w
    | None => if str_eq_dec k k' then Some v else None
    end.
Proof.
  induction l as [| [k0 v0] r IH]; simpl; [reflexivity |].
  destruct (str_eq_dec k k0); [reflexivity | exact IH].
Qed.

Section NormalizeKeys.
Variable py_str : value -> pystr.

Let step := fun (d : dict) (kv : pystr * value) =>
  let '(k, v) := kv in
  if str_eq_dec k (of_ascii "_id") then dict_set d k (VStr (py_str v))
  else dict_set d k v.

Lemma normalize_get_loop (doc acc : dict) (k : pystr) :
  dict_get (fold_left step doc acc) k
  = match dict_get (rev doc) k with
    | Some v => Some (snd (render py_str (k, v)))
    | None => dict_get acc k
    end.
Proof.
  revert acc; induction doc as [| [k0 v0] r IH]; intros acc; simpl; [reflexivity |].
  rewrite IH, dict_get_app_single.
  destruct (dict_get (rev r) k); [reflexivity |].
  unfold step, render; simpl.
  destruct (str_eq_dec k0 (of_ascii "_id")) as [H0 | H0]; rewrite dict_get_set;
    destruct (str_eq_dec k k0) as [-> | ?]; try reflexivity.
  - destruct (str_eq_dec k0 (of_ascii "_id")); [reflexivity | contradiction].
  - destruct (str_eq_dec k0 (of_ascii "_id")); [contradiction | reflexivity].
Qed.

Lemma normalize_nodup_loop (doc acc : dict) :
  NoDup (map fst acc) -> NoDup (map fst (fold_left step doc acc)).
Proof.
  revert acc; induction doc as [| [k0 v0] r IH]; intros acc H; simpl; [exact H |].
  apply IH. unfold step. destruct (str_eq_dec k0 (of_ascii "_id")); apply dict_set_nodup, H.
Qed.

End NormalizeKeys.

(** [normalize] behaves as a Python dict built by assignment, whatever the
    document: its keys are distinct, and each key holds the value of its
    LAST occurrence in the document, rendered with [str] when the key is
    [_id]. *)
Theorem normalize_last_wins (py_str : value -> pystr) (doc : dict) (k : pystr) :
  NoDup (map fst (normalize py_str doc)) /\
  dict_get (normalize py_str doc) k
  = option_map (fun v => snd (render py_str (k, v))) (dict_get (rev doc) k).
Proof.
  split.
  - apply normalize_nodup_loop; constructor.
  - unfold normalize. rewrite normalize_get_loop. destruct (dict_get (rev doc) k); reflexivity.
Qed.

Lemma model_names_lower : map py_lower model_names = VALID_COLLECTIONS.
Proof. reflexivity. Qed.

(** For any [schemas] module whatsoever, a successful [/schema] answer has
    distinct keys, all taken from the allow-list. *)
Theorem get_schema_keys_allowed (m : pymodule) (out : dict) :
  get_schema (Returns m) = Ok (VDict out) ->
  NoDup (map fst out) /\ incl (map fst out) VALID_COLLECTIONS.
Proof.
  unfold get_schema.
  match goal with |- context [fold_left ?f _ _] => set (step := f) end.
  set (P := fun o : option dict =>
              match o with
              | Some a => NoDup (map fst a) /\ incl (map fst a) VALID_COLLECTIONS
              | None => True
              end).
  assert (Hfold : forall names acc,
             incl names model_names -> P acc -> P (fold_left step names acc)).
  { induction names as [| n ns IH]; intros acc Hn Hacc; simpl; [exact Hacc |].
    apply IH; [intros x Hx; apply Hn; right; exact Hx |].
    destruct acc as [a |]; [| exact I]. unfold step.
    destruct (getattr m n) as [[[] fs |] |]; simpl; try exact Hacc; try exact I.
    destruct Hacc as [Hnd Hinc]. split; [apply dict_set_nodup; exact Hnd |].
    intros x Hx. apply dict_set_keys_incl in Hx. destruct Hx as [<- | Hx]; [| apply Hinc, Hx].
    rewrite <- model_names_lower. apply in_map, Hn. left; reflexivity. }
  specialize (Hfold model_names (Some []) (incl_refl _)).
  destruct (fold_left step model_names (Some [])) as [o |]; intros H; [| discriminate].
  injection H as <-. apply Hfold. split; [constructor | intros x []].
Qed.

Lemma get_schema_keys_allowed_witness :
  exists out, get_schema (Returns schemas_module) = Ok (VDict out) /\
  NoDup (map fst out) /\ incl (map fst out) VALID_COLLECTIONS.
Proof.
  eexists. split; [reflexivity |].
  apply (get_schema_keys_allowed schemas_module). reflexivity.
Defined.



(** The required fields published by [/schema] for each type. *)
Theorem registry_required_fields :
  exists out,
    get_schema (Returns schemas_module) = Ok (VDict out) /\
    schema_required out "tenant"%string = field_names ["first_name"; "last_name"]%string /\
    schema_required out "owner"%string = field_names ["first_name"; "last_name"]%string /\
    schema_required out "property"%string = field_names ["title"; "address"]%string /\
    schema_required out "lease"%string
      = field_names ["tenant_id"; "property_id"; "start_date"; "monthly_rent"]%string /\
    schema_required out "sale"%string = field_names ["property_id"; "buyer_name"; "price"]%string /\
    schema_required out "expense"%string = field_names ["amount"; "expense_date"]%string /\
    schema_required out "document"%string = field_names ["title"]%string.
Proof.
  eexists; split; [reflexivity |].
  repeat split; vm_compute; reflexivity.
Qed.

(** The [/test] payload always has the same six keys in the same order;
    its [connection_status] is always ["Not Connected"] (no branch updates
    it); when listing the collections fails, the [database] field carries
    at most the first 80 characters of the error and no collection is
    listed. *)
Theorem test_payload_shape (db : option store) (fault : option pystr)
    (getenv : pystr -> option pystr) :
  exists d,
    test_database db fault getenv = Ok (VDict d) /\
    map fst d = TEST_KEYS /\
    dict_get d (of_ascii "connection_status") = Some (VStr (of_ascii "Not Connected")) /\
    (forall s e, db = Some s -> fault = Some e ->
       dict_get d (of_ascii "database")
         = Some (VStr (WARN ++ of_ascii " Connected but Error: " ++ firstn 80 e)) /\
       dict_get d (of_ascii "collections") = Some (VList [])).
Proof.
  destruct db as [s |]; [destruct fault as [e |] |];
    (eexists; split; [reflexivity |]);
    (split; [reflexivity | split; [reflexivity |]]);
    intros s' e' Hs He; try discriminate.
  injection He as <-. split; reflexivity.
Qed.
